(** * Amplify custom pipeline: the synthesis-time configuration assembly

    A shallow embedding of [amplify/custom/pipeline/resource.ts]
    ([defineFrontend], [definePipeline]) and of its caller
    [amplify/backend.ts].

    The two functions build an object graph through the constructors of
    the infrastructure SDK: every [new X(scope, id, props)] registers a
    construct under its scope, and a few methods ([addToRolePolicy],
    [grantReadWrite], [addStage]) mutate a construct that was registered
    earlier.  The embedding keeps both: the construct tree is an explicit
    store threaded through a state monad, constructs are referred to by
    their address in that store, and the mutating methods update the
    store in place, so that every holder of a handle sees the update.

    The SDK itself is not part of the repository.  What it computes for
    the read-only attributes the code consults ([bucket.bucketName],
    [distribution.distributionDomainName], ...) is a parameter of the
    development (class [Sdk]); what it checks (name syntax, duplicate
    construct ids) is outside the model: the constructors below record
    the properties they are given.  Likewise the tree holds the
    constructs the code itself creates and a build identity lists what
    the code itself attaches to it; the helper constructs, roles and
    default statements the SDK adds of its own accord are not
    represented. *)

From Stdlib Require Import ZArith Ascii.
From stdpp Require Import base list strings.

Local Open Scope stdpp_scope.

(** ** Values *)

(** The double-quote character, for shell commands that contain one. *)
Definition dquote : string := String "034"%char EmptyString.

(** Plain JavaScript object literals, as handed to [BuildSpec.fromObject]. *)
#[local] Unset Elimination Schemes.
Inductive JSON : Type :=
| JString (s : string)
| JNumber (n : Z)
| JArray (items : list JSON)
| JObject (members : list (string * JSON)).
#[local] Set Elimination Schemes.

Fixpoint assoc {A : Type} (k : string) (kvs : list (string * A)) : option A :=
  match kvs with
  | [] => None
  | (k', v) :: rest => if String.eqb k k' then Some v else assoc k rest
  end.

(** [member k o] is the property [o.k]; [None] stands for [undefined]. *)
Definition member (k : string) (o : JSON) : option JSON :=
  match o with
  | JObject kvs => assoc k kvs
  | _ => None
  end.

Definition strings (l : list string) : JSON := JArray (JString <$> l).
Definition commands (l : list string) : string * JSON := ("commands", strings l).

(** ** The SDK's data types, one module per imported package *)

Module cdk.
Inductive RemovalPolicy := DESTROY | RETAIN | SNAPSHOT | RETAIN_ON_UPDATE_OR_DELETE.
Record Stack := { stackName : string; account : string }.
Record SecretValue := { unsafeUnwrap : string }.
Record CfnOutputProps := { value : string }.
End cdk.

Module s3.
Inductive BlockPublicAccess := BLOCK_ALL | BLOCK_ACLS.
Record Bucket := BucketAt { addr : nat }.
Record BucketProps := {
  bucketName : option string;
  blockPublicAccess : BlockPublicAccess;
  removalPolicy : cdk.RemovalPolicy;
  autoDeleteObjects : bool }.
End s3.

Module cloudfront_origins.
Inductive S3BucketOrigin :=
| withOriginAccessControl (bucket : s3.Bucket)
| withOriginAccessIdentity (bucket : s3.Bucket)
| withBucketDefaults (bucket : s3.Bucket).
End cloudfront_origins.

Module cloudfront.
Inductive ViewerProtocolPolicy := HTTPS_ONLY | REDIRECT_TO_HTTPS | ALLOW_ALL.
Record Distribution := DistributionAt { addr : nat }.
Record BehaviorOptions := {
  origin : cloudfront_origins.S3BucketOrigin;
  viewerProtocolPolicy : ViewerProtocolPolicy }.
Record ErrorResponse := {
  httpStatus : Z;
  responseHttpStatus : Z;
  responsePagePath : string }.
Record DistributionProps := {
  defaultBehavior : BehaviorOptions;
  defaultRootObject : string;
  errorResponses : list ErrorResponse }.
End cloudfront.

Module iam.
Record PolicyStatement := { actions : list string; resources : list string }.
End iam.

Module secretsmanager.
Record ISecret := SecretAt { addr : nat }.
End secretsmanager.

Module codebuild.
Inductive LinuxBuildImage := STANDARD_5_0 | STANDARD_6_0 | STANDARD_7_0.
Inductive ComputeType := SMALL | MEDIUM | LARGE | X2_LARGE.
Record PipelineProject := ProjectAt { addr : nat }.
Record BuildEnvironment := {
  buildImage : LinuxBuildImage;
  computeType : ComputeType }.
Record BuildEnvironmentVariable := { value : string }.
Record PipelineProjectProps := {
  projectName : string;
  environment : BuildEnvironment;
  environmentVariables : list (string * BuildEnvironmentVariable);
  buildSpec : JSON }.
End codebuild.

Module codepipeline.
Record Artifact := { artifactName : string }.
Record Pipeline := PipelineAt { addr : nat }.
Record PipelineProps := { pipelineName : string }.
End codepipeline.

Module codepipeline_actions.
Inductive GitHubTrigger := NONE | POLL | WEBHOOK.
(* Both property records have an [actionName]; the source action's
   is spelled [gh_actionName] to keep the two projections apart. *)
Record GitHubSourceActionProps := {
  gh_actionName : string;
  owner : string;
  repo : string;
  branch : string;
  oauthToken : cdk.SecretValue;
  output : codepipeline.Artifact;
  trigger : GitHubTrigger }.
Record CodeBuildActionProps := {
  actionName : string;
  project : codebuild.PipelineProject;
  input : codepipeline.Artifact;
  extraInputs : option (list codepipeline.Artifact);
  outputs : option (list codepipeline.Artifact) }.
Inductive Action :=
| GitHubSourceAction (props : GitHubSourceActionProps)
| CodeBuildAction (props : CodeBuildActionProps).
End codepipeline_actions.

(** [codepipeline.StageProps]; it is declared here because it mentions
    the actions of [codepipeline_actions]. *)
Record StageProps := {
  stageName : string;
  actions : list codepipeline_actions.Action }.

(** ** The construct tree *)

(** What the code attaches to the identity (role) of a build project, one
    entry per call of [addToRolePolicy] or [grantReadWrite]. *)
Inductive Grant :=
| Statement (statement : iam.PolicyStatement)
| BucketReadWrite (bucket : s3.Bucket).

Inductive Construct :=
| CBucket (props : s3.BucketProps)
| CDistribution (props : cloudfront.DistributionProps)
| CCfnOutput (props : cdk.CfnOutputProps)
| CSecret (secretName : string)
| CPipelineProject (props : codebuild.PipelineProjectProps) (role : list Grant)
| CPipeline (props : codepipeline.PipelineProps) (stages : list StageProps).

Record Node := {
  node_scope : cdk.Stack;
  node_id : string;
  node_construct : Construct }.

(** The tree, flattened: constructs in creation order.  A handle such as
    [s3.BucketAt n] designates the [n]-th construct ever created. *)
Abbreviation App := (list Node).

(** ** Synthesis as a state monad over the construct tree *)

Definition Synth (A : Type) : Type := App -> A * App.

Definition ret {A : Type} (a : A) : Synth A := fun app => (a, app).

Definition bind {A B : Type} (m : Synth A) (k : A -> Synth B) : Synth B :=
  fun app => let (a, app') := m app in k a app'.

Declare Scope synth_scope.
Delimit Scope synth_scope with synth.
Bind Scope synth_scope with Synth.

Notation "'const' x ':=' m ';' k" := (bind m (fun x => k))
  (at level 10, x name, m at level 100, k at level 200,
   format "'[v' 'const'  x  ':='  m ';' '/' k ']'") : synth_scope.
Notation "m ';;' k" := (bind m (fun _ => k))
  (at level 100, k at level 200, right associativity) : synth_scope.

(** [new X(scope, id, ...)]: the construct is appended to the tree and
    its address is returned. *)
Definition construct (scope : cdk.Stack) (id : string) (c : Construct) : Synth nat :=
  fun app => (length app, app ++ [{| node_scope := scope; node_id := id; node_construct := c |}]).

(** In-place update of the construct behind a handle.  An address that
    designates nothing leaves the tree as it is; the code only updates
    constructs it has created itself, a few lines earlier. *)
Definition mutate (at_ : nat) (f : Construct -> Construct) : Synth unit :=
  fun app =>
    (tt, alter (fun n => {| node_scope := node_scope n; node_id := node_id n;
                            node_construct := f (node_construct n) |}) at_ app).

Definition exec {A : Type} (m : Synth A) (app : App) : App := snd (m app).
Definition eval {A : Type} (m : Synth A) (app : App) : A := fst (m app).

(** The constructs a run has added to the tree it started from. *)
Definition added {A : Type} (m : Synth A) (app : App) : list Node :=
  drop (length app) (exec m app).

(** ** The SDK's constructors and methods *)

(** Read-only attributes the SDK assigns to a construct.  At synthesis
    time they are opaque strings (placeholders the provider resolves at
    deployment); the code only copies and concatenates them. *)
Class Sdk := {
  Bucket_bucketName : s3.Bucket -> string;
  Distribution_distributionDomainName : cloudfront.Distribution -> string;
  Distribution_distributionId : cloudfront.Distribution -> string;
  ISecret_secretValue : secretsmanager.ISecret -> cdk.SecretValue;
  Pipeline_pipelineName : codepipeline.Pipeline -> string }.

Module new.
Definition Bucket (scope : cdk.Stack) (id : string) (props : s3.BucketProps)
  : Synth s3.Bucket :=
  (const a := construct scope id (CBucket props); ret (s3.BucketAt a))%synth.

Definition Distribution (scope : cdk.Stack) (id : string)
    (props : cloudfront.DistributionProps) : Synth cloudfront.Distribution :=
  (const a := construct scope id (CDistribution props);
   ret (cloudfront.DistributionAt a))%synth.

Definition CfnOutput (scope : cdk.Stack) (id : string) (props : cdk.CfnOutputProps)
  : Synth unit :=
  (const a := construct scope id (CCfnOutput props); ret tt)%synth.

Definition PipelineProject (scope : cdk.Stack) (id : string)
    (props : codebuild.PipelineProjectProps) : Synth codebuild.PipelineProject :=
  (const a := construct scope id (CPipelineProject props []);
   ret (codebuild.ProjectAt a))%synth.

Definition Pipeline (scope : cdk.Stack) (id : string)
    (props : codepipeline.PipelineProps) : Synth codepipeline.Pipeline :=
  (const a := construct scope id (CPipeline props []);
   ret (codepipeline.PipelineAt a))%synth.

Definition Artifact (name : string) : codepipeline.Artifact :=
  {| codepipeline.artifactName := name |}.
End new.

(** [secretsmanager.Secret.fromSecretNameV2(scope, id, secretName)] *)
Definition fromSecretNameV2 (scope : cdk.Stack) (id : string) (secretName : string)
  : Synth secretsmanager.ISecret :=
  (const a := construct scope id (CSecret secretName);
   ret (secretsmanager.SecretAt a))%synth.

Definition grant (g : Grant) (c : Construct) : Construct :=
  match c with
  | CPipelineProject props role => CPipelineProject props (role ++ [g])
  | other => other
  end.

(** [project.addToRolePolicy(statement)] *)
Definition addToRolePolicy (project : codebuild.PipelineProject)
    (statement : iam.PolicyStatement) : Synth unit :=
  mutate (codebuild.addr project) (grant (Statement statement)).

(** [bucket.grantReadWrite(project)] *)
Definition grantReadWrite (bucket : s3.Bucket) (project : codebuild.PipelineProject)
  : Synth unit :=
  mutate (codebuild.addr project) (grant (BucketReadWrite bucket)).

Definition push_stage (stage : StageProps) (c : Construct) : Construct :=
  match c with
  | CPipeline props stages => CPipeline props (stages ++ [stage])
  | other => other
  end.

(** [pipeline.addStage(stage)] *)
Definition addStage (pipeline : codepipeline.Pipeline) (stage : StageProps)
  : Synth unit :=
  mutate (codepipeline.addr pipeline) (push_stage stage).

(** ** [resource.ts] *)

Record FrontendProps := {
  (* Optional bucket name (auto-generated if not provided) *)
  bucketName : option string }.

Record FrontendOutput := {
  bucket : s3.Bucket;
  distribution : cloudfront.Distribution;
  url : string }.

Record PipelineProps := {
  (* GitHub repository owner *)
  githubOwner : string;
  (* GitHub repository name *)
  githubRepo : string;
  (* GitHub branch to deploy *)
  githubBranch : string;
  (* Secrets Manager secret name for GitHub token *)
  githubTokenSecretName : string;
  (* Stack name for Amplify backend deployment *)
  stackName : string;
  (* Frontend hosting (from defineFrontend) *)
  frontend : FrontendOutput }.

Record PipelineOutput := {
  pipeline : codepipeline.Pipeline }.

Section Resource.
Context `{sdk : Sdk}.
Local Open Scope synth_scope.

(** Define frontend hosting infrastructure (S3 + CloudFront) *)
Definition defineFrontend (stack : cdk.Stack) (props : option FrontendProps)
  : Synth FrontendOutput :=
  const bucket := new.Bucket stack "FrontendBucket" {|
    s3.bucketName := match props with Some p => bucketName p | None => None end;
    s3.blockPublicAccess := s3.BLOCK_ALL;
    s3.removalPolicy := cdk.DESTROY;
    s3.autoDeleteObjects := true |};

  const distribution := new.Distribution stack "Distribution" {|
    cloudfront.defaultBehavior := {|
      cloudfront.origin := cloudfront_origins.withOriginAccessControl bucket;
      cloudfront.viewerProtocolPolicy := cloudfront.REDIRECT_TO_HTTPS |};
    cloudfront.defaultRootObject := "index.html";
    cloudfront.errorResponses := [
      {| cloudfront.httpStatus := 404%Z;
         cloudfront.responseHttpStatus := 200%Z;
         cloudfront.responsePagePath := "/index.html" |} ] |};

  let url := "https://" +:+ Distribution_distributionDomainName distribution in

  new.CfnOutput stack "CloudFrontURL" {| cdk.value := url |};;
  new.CfnOutput stack "BucketName" {| cdk.value := Bucket_bucketName bucket |};;

  ret {| bucket := bucket; distribution := distribution; url := url |}.

(** The build specification of the backend deployment project. *)
Definition backendBuildSpec : JSON :=
  JObject [
    ("version", JString "0.2");
    ("phases", JObject [
      ("install", JObject [
        ("runtime-versions", JObject [("nodejs", JNumber 20%Z)]);
        commands ["npm ci"; "npx ampx --version"] ]);
      ("build", JObject [
        commands [
          "echo " +:+ dquote +:+ "Deploying backend with --custom-pipeline..." +:+ dquote;
          "npx ampx pipeline-deploy --branch $BRANCH_NAME --custom-pipeline --stack-name $STACK_NAME --outputs-out-dir . --outputs-format json";
          "cat amplify_outputs.json" ] ]) ]);
    ("artifacts", JObject [("files", strings ["amplify_outputs.json"])]);
    ("cache", JObject [("paths", strings ["node_modules/**/*"])]) ].

(** The build specification of the frontend build and deploy project. *)
Definition frontendBuildSpec : JSON :=
  JObject [
    ("version", JString "0.2");
    ("phases", JObject [
      ("install", JObject [
        ("runtime-versions", JObject [("nodejs", JNumber 20%Z)]);
        commands ["npm ci"] ]);
      ("pre_build", JObject [
        commands [
          "cp $CODEBUILD_SRC_DIR_BackendOutput/amplify_outputs.json .";
          "cat amplify_outputs.json" ] ]);
      ("build", JObject [
        commands ["npm run build"] ]);
      ("post_build", JObject [
        commands [
          "aws s3 sync dist/ s3://$BUCKET_NAME/ --delete";
          "aws cloudfront create-invalidation --distribution-id $DISTRIBUTION_ID --paths "
            +:+ dquote +:+ "/*" +:+ dquote ] ]) ]) ].

(** Define CI/CD pipeline that deploys Amplify Gen2 backend (using
    --custom-pipeline) and frontend to S3 + CloudFront *)
Definition definePipeline (stack : cdk.Stack) (props : PipelineProps)
  : Synth PipelineOutput :=
  let '{| githubOwner := githubOwner; githubRepo := githubRepo;
          githubBranch := githubBranch;
          githubTokenSecretName := githubTokenSecretName;
          stackName := stackName; frontend := frontend |} := props in

  const githubToken := fromSecretNameV2 stack "GitHubToken" githubTokenSecretName;

  let sourceOutput := new.Artifact "SourceOutput" in
  let backendOutput := new.Artifact "BackendOutput" in

  (* Backend deployment project *)
  const backendProject := new.PipelineProject stack "BackendBuild" {|
    codebuild.projectName := stackName +:+ "-backend";
    codebuild.environment := {|
      codebuild.buildImage := codebuild.STANDARD_7_0;
      codebuild.computeType := codebuild.MEDIUM |};
    codebuild.environmentVariables := [
      ("BRANCH_NAME", {| codebuild.value := githubBranch |});
      ("STACK_NAME", {| codebuild.value := stackName |}) ];
    codebuild.buildSpec := backendBuildSpec |};

  addToRolePolicy backendProject {|
    iam.actions := ["cloudformation:*"; "iam:*"; "cognito-idp:*"; "appsync:*";
                    "dynamodb:*"; "lambda:*"; "s3:*"; "ssm:*";
                    "secretsmanager:GetSecretValue"; "logs:*"; "sts:AssumeRole"];
    iam.resources := ["*"] |};;

  (* Frontend build + deploy project *)
  const frontendProject := new.PipelineProject stack "FrontendBuild" {|
    codebuild.projectName := stackName +:+ "-frontend";
    codebuild.environment := {|
      codebuild.buildImage := codebuild.STANDARD_7_0;
      codebuild.computeType := codebuild.MEDIUM |};
    codebuild.environmentVariables := [
      ("BUCKET_NAME", {| codebuild.value := Bucket_bucketName (bucket frontend) |});
      ("DISTRIBUTION_ID",
        {| codebuild.value := Distribution_distributionId (distribution frontend) |}) ];
    codebuild.buildSpec := frontendBuildSpec |};

  grantReadWrite (bucket frontend) frontendProject;;
  addToRolePolicy frontendProject {|
    iam.actions := ["cloudfront:CreateInvalidation"];
    iam.resources := [
      "arn:aws:cloudfront::" +:+ cdk.account stack +:+ ":distribution/"
        +:+ Distribution_distributionId (distribution frontend) ] |};;

  (* Create pipeline *)
  const pipeline := new.Pipeline stack "Pipeline" {|
    codepipeline.pipelineName := stackName +:+ "-pipeline" |};

  addStage pipeline {|
    stageName := "Source";
    actions := [codepipeline_actions.GitHubSourceAction {|
      codepipeline_actions.gh_actionName := "GitHub";
      codepipeline_actions.owner := githubOwner;
      codepipeline_actions.repo := githubRepo;
      codepipeline_actions.branch := githubBranch;
      codepipeline_actions.oauthToken := ISecret_secretValue githubToken;
      codepipeline_actions.output := sourceOutput;
      codepipeline_actions.trigger := codepipeline_actions.WEBHOOK |}] |};;

  addStage pipeline {|
    stageName := "DeployBackend";
    actions := [codepipeline_actions.CodeBuildAction {|
      codepipeline_actions.actionName := "Backend";
      codepipeline_actions.project := backendProject;
      codepipeline_actions.input := sourceOutput;
      codepipeline_actions.extraInputs := None;
      codepipeline_actions.outputs := Some [backendOutput] |}] |};;

  addStage pipeline {|
    stageName := "DeployFrontend";
    actions := [codepipeline_actions.CodeBuildAction {|
      codepipeline_actions.actionName := "Frontend";
      codepipeline_actions.project := frontendProject;
      codepipeline_actions.input := sourceOutput;
      codepipeline_actions.extraInputs := Some [backendOutput];
      codepipeline_actions.outputs := None |}] |};;

  new.CfnOutput stack "PipelineName" {| cdk.value := Pipeline_pipelineName pipeline |};;

  ret {| pipeline := pipeline |}.

End Resource.

(** ** [backend.ts] *)

Section Backend.
Context `{sdk : Sdk}.
Local Open Scope synth_scope.

(** The two calls of the top-level wiring.  [createStack] stands for
    [backend.createStack]; it and [defineBackend] belong to the Amplify
    library, and what they register themselves is left out. *)
Definition backend_ts (createStack : string -> cdk.Stack) : Synth unit :=
  (* Define frontend hosting (S3 + CloudFront) *)
  const frontend := defineFrontend (createStack "Frontend") None;

  (* Define CI/CD pipeline without Amplify Hosting *)
  definePipeline (createStack "Pipeline") {|
    githubOwner := "adrianjoshua-strutt";
    githubRepo := "amplify-vite-react-custom-pipeline";
    githubBranch := "main";
    githubTokenSecretName := "github-token";
    stackName := "amplify-vite-react-custom-pipeline";
    frontend := frontend |};;
  ret tt.

End Backend.

(** ** Reading the construct tree *)

Definition bucket_at (t : App) (b : s3.Bucket) : option s3.BucketProps :=
  match t !! s3.addr b with
  | Some {| node_construct := CBucket props |} => Some props
  | _ => None
  end.

Definition distribution_at (t : App) (d : cloudfront.Distribution)
  : option cloudfront.DistributionProps :=
  match t !! cloudfront.addr d with
  | Some {| node_construct := CDistribution props |} => Some props
  | _ => None
  end.

Definition project_at (t : App) (p : codebuild.PipelineProject)
  : option (codebuild.PipelineProjectProps * list Grant) :=
  match t !! codebuild.addr p with
  | Some {| node_construct := CPipelineProject props role |} => Some (props, role)
  | _ => None
  end.

Definition pipeline_at (t : App) (p : codepipeline.Pipeline)
  : option (codepipeline.PipelineProps * list StageProps) :=
  match t !! codepipeline.addr p with
  | Some {| node_construct := CPipeline props stages |} => Some (props, stages)
  | _ => None
  end.

(** The published outputs among some constructs: scope, name and value. *)
Definition outputs (nodes : list Node) : list (cdk.Stack * string * string) :=
  omap (fun n => match node_construct n with
                 | CCfnOutput props => Some (node_scope n, node_id n, cdk.value props)
                 | _ => None
                 end) nodes.

Definition stage_named (name : string) (stages : list StageProps) : option StageProps :=
  List.find (fun s => String.eqb (stageName s) name) stages.

Definition action_project (a : codepipeline_actions.Action)
  : option codebuild.PipelineProject :=
  match a with
  | codepipeline_actions.CodeBuildAction props => Some (codepipeline_actions.project props)
  | codepipeline_actions.GitHubSourceAction _ => None
  end.

(** The build project run by the first action of the stage called [name]
    of pipeline [p], with the grants its identity has received. *)
Definition stage_build (t : App) (p : codepipeline.Pipeline) (name : string)
  : option (codebuild.PipelineProjectProps * list Grant) :=
  ps ← pipeline_at t p;
  s ← stage_named name ps.2;
  a ← head (actions s);
  h ← action_project a;
  project_at t h.

(** The command list of one phase of a build specification. *)
Definition phase_commands (phase : string) (spec : JSON) : option JSON :=
  phases ← member "phases" spec;
  steps ← member phase phases;
  member "commands" steps.

(** The ARN of the CloudFront distribution [id] owned by [account]. *)
Definition distributionArn (account id : string) : string :=
  "arn:aws:cloudfront::" +:+ account +:+ ":distribution/" +:+ id.

(** An SDK whose attributes are fixed placeholders, to run the
    definitions on concrete inputs. *)
Definition placeholders : Sdk := {|
  Bucket_bucketName _ := "${Token[Bucket.Ref]}";
  Distribution_distributionDomainName _ := "${Token[Distribution.DomainName]}";
  Distribution_distributionId _ := "${Token[Distribution.Ref]}";
  ISecret_secretValue _ := {| cdk.unsafeUnwrap := "${Token[SecretValue]}" |};
  Pipeline_pipelineName _ := "${Token[Pipeline.Ref]}" |}.

Definition amplifyStack (name : string) : cdk.Stack :=
  {| cdk.stackName := name; cdk.account := "${Token[AWS.AccountId]}" |}.

Definition secret_at (t : App) (s : secretsmanager.ISecret) : option string :=
  match t !! secretsmanager.addr s with
  | Some {| node_construct := CSecret secretName |} => Some secretName
  | _ => None
  end.

(** Where a construct hangs in the tree: its scope and its id. *)
Definition node_path (n : Node) : cdk.Stack * string := (node_scope n, node_id n).

(** [{ ...props, frontend }] *)
Definition with_frontend (fe : FrontendOutput) (props : PipelineProps) : PipelineProps :=
  {| githubOwner := githubOwner props;
     githubRepo := githubRepo props;
     githubBranch := githubBranch props;
     githubTokenSecretName := githubTokenSecretName props;
     stackName := stackName props;
     frontend := fe |}.

Section Wiring.
Context `{sdk : Sdk}.
Local Open Scope synth_scope.

(** The way [backend.ts] uses the two functions, for any stacks and
    properties: the hosting is defined first and its descriptor is handed
    to the pipeline. *)
Definition hosted_pipeline (fstack : cdk.Stack) (fprops : option FrontendProps)
    (pstack : cdk.Stack) (pprops : PipelineProps)
  : Synth (FrontendOutput * PipelineOutput) :=
  const frontend := defineFrontend fstack fprops;
  const pipeline := definePipeline pstack (with_frontend frontend pprops);
  ret (frontend, pipeline).

End Wiring.

(** ** Running the assembly on a tree of unknown content *)

Section Fresh.
Context {A : Type}.
Implicit Types (l k : list A) (f : A -> A).

Lemma alter_fresh f l k i : alter f (length l + i) (l ++ k) = l ++ alter f i k.
Proof. apply alter_app_r. Qed.

Lemma alter_fresh0 f l k : alter f (length l) (l ++ k) = l ++ alter f 0 k.
Proof. rewrite <- (Nat.add_0_r (length l)) at 1. apply alter_app_r. Qed.

Lemma lookup_fresh l k i : (l ++ k) !! (length l + i) = k !! i.
Proof. rewrite lookup_app_r by lia. f_equal. lia. Qed.

Lemma lookup_fresh0 l k : (l ++ k) !! (length l) = k !! 0.
Proof. rewrite <- (Nat.add_0_r (length l)) at 1. apply lookup_fresh. Qed.

End Fresh.

(** Unfold one run into the primitive operations on the tree. *)
Ltac synth_unfold :=
  unfold added, eval, exec, backend_ts, defineFrontend, definePipeline, addStage,
    addToRolePolicy, grantReadWrite, fromSecretNameV2, mutate, new.Bucket,
    new.Distribution, new.PipelineProject, new.Pipeline, new.CfnOutput, bind,
    ret, construct;
  cbn [fst snd codebuild.addr codepipeline.addr s3.addr cloudfront.addr].

(** Bring the tree to the form [t ++ [n1; ...; nk]] and every address to
    the form [length t + i]. *)
Ltac synth_norm :=
  repeat progress
    (rewrite ?length_app, ?length_alter, <- ?Nat.add_assoc, <- ?(assoc_L (++)),
       ?alter_fresh, ?alter_fresh0;
     cbn [length Nat.add Datatypes.app alter list_alter grant push_stage
          node_construct node_scope node_id]).

(** Read the constructs the run has created. *)
Ltac synth_read :=
  unfold stage_build, pipeline_at, project_at, bucket_at, distribution_at;
  repeat progress
    (cbn -[String.append];
     rewrite ?lookup_fresh, ?lookup_fresh0, ?drop_app_length).

Ltac synth := synth_unfold; synth_norm; synth_read.

Section Claims.
Context `{sdk : Sdk}.
Implicit Types (stack : cdk.Stack) (t : App).

(** C1. The pipeline assembled by [definePipeline] has exactly three
    stages, in the order Source, DeployBackend, DeployFrontend, and each
    stage holds exactly one action. *)
Theorem pipeline_three_single_action_stages stack (props : PipelineProps) t :
  let out := eval (definePipeline stack props) t in
  let t' := exec (definePipeline stack props) t in
  exists pprops stages,
    pipeline_at t' (pipeline out) = Some (pprops, stages) /\
    stageName <$> stages = ["Source"; "DeployBackend"; "DeployFrontend"] /\
    Forall (fun s => length (actions s) = 1) stages.
Proof.
  destruct props; intros out t'; subst out t'.
  synth. do 2 eexists. split; [reflexivity|].
  split; [reflexivity|]. repeat constructor.
Qed.

(** C2. The build action of the DeployFrontend stage takes the source
    artifact (the output of the source action) as its primary input and
    the artifact produced by the backend stage as an extra input, not the
    other way round, and declares no output artifact. *)
Theorem frontend_action_inputs stack (props : PipelineProps) t :
  let out := eval (definePipeline stack props) t in
  let t' := exec (definePipeline stack props) t in
  exists pprops src be fe sourceArtifact backendArtifact,
    pipeline_at t' (pipeline out) = Some (pprops, [
      {| stageName := "Source";
         actions := [codepipeline_actions.GitHubSourceAction src] |};
      {| stageName := "DeployBackend";
         actions := [codepipeline_actions.CodeBuildAction be] |};
      {| stageName := "DeployFrontend";
         actions := [codepipeline_actions.CodeBuildAction fe] |} ]) /\
    codepipeline_actions.output src = sourceArtifact /\
    codepipeline_actions.outputs be = Some [backendArtifact] /\
    codepipeline_actions.input fe = sourceArtifact /\
    codepipeline_actions.extraInputs fe = Some [backendArtifact] /\
    codepipeline_actions.outputs fe = None /\
    sourceArtifact <> backendArtifact.
Proof.
  destruct props; intros out t'; subst out t'.
  synth. do 6 eexists. split; [reflexivity|].
  cbn. repeat split. discriminate.
Qed.

(** C3. Whatever the input, with or without a bucket name, the bucket
    created by [defineFrontend] blocks all public access, is destroyed
    with the stack, and has its objects deleted automatically. *)
Theorem frontend_bucket_private_and_disposable stack (props : option FrontendProps) t :
  let out := eval (defineFrontend stack props) t in
  let t' := exec (defineFrontend stack props) t in
  exists bprops,
    bucket_at t' (bucket out) = Some bprops /\
    s3.blockPublicAccess bprops = s3.BLOCK_ALL /\
    s3.removalPolicy bprops = cdk.DESTROY /\
    s3.autoDeleteObjects bprops = true.
Proof.
  intros out t'; subst out t'. synth.
  eexists. split; [reflexivity|]. by destruct props.
Qed.

(** C4. Whatever the input, the distribution created by [defineFrontend]
    declares exactly one error response, which turns status 404 into
    /index.html served with status 200. *)
Theorem distribution_single_error_response stack (props : option FrontendProps) t :
  let out := eval (defineFrontend stack props) t in
  let t' := exec (defineFrontend stack props) t in
  exists dprops,
    distribution_at t' (distribution out) = Some dprops /\
    cloudfront.errorResponses dprops = [
      {| cloudfront.httpStatus := 404;
         cloudfront.responseHttpStatus := 200;
         cloudfront.responsePagePath := "/index.html" |} ].
Proof.
  intros out t'; subst out t'. synth.
  eexists. split; reflexivity.
Qed.

(** C5. The build specification of the backend project lists exactly one
    artifact file, amplify_outputs.json; the build specification of the
    frontend project has no artifacts section. *)
Theorem build_artifacts stack (props : PipelineProps) t :
  let out := eval (definePipeline stack props) t in
  let t' := exec (definePipeline stack props) t in
  exists bprops brole fprops frole,
    stage_build t' (pipeline out) "DeployBackend" = Some (bprops, brole) /\
    stage_build t' (pipeline out) "DeployFrontend" = Some (fprops, frole) /\
    member "artifacts" (codebuild.buildSpec bprops)
      = Some (JObject [("files", JArray [JString "amplify_outputs.json"])]) /\
    member "artifacts" (codebuild.buildSpec fprops) = None.
Proof.
  destruct props; intros out t'; subst out t'.
  synth. do 4 eexists. repeat split.
Qed.

(** C6. The identity of the frontend build project is granted read/write
    on the hosting bucket of the frontend descriptor, and the statement
    added to its role allows cloudfront:CreateInvalidation on exactly one
    resource, the ARN built from the identifier of the descriptor's
    distribution (and the account of the pipeline's stack), which is not
    the wildcard. *)
Theorem frontend_build_identity_grants stack (props : PipelineProps) t :
  let out := eval (definePipeline stack props) t in
  let t' := exec (definePipeline stack props) t in
  let arn := distributionArn (cdk.account stack)
               (Distribution_distributionId (distribution (frontend props))) in
  exists fprops,
    stage_build t' (pipeline out) "DeployFrontend" = Some (fprops, [
      BucketReadWrite (bucket (frontend props));
      Statement {| iam.actions := ["cloudfront:CreateInvalidation"];
                   iam.resources := [arn] |} ]) /\
    arn <> "*".
Proof.
  destruct props; intros out t' arn; subst out t' arn.
  synth. eexists. split; [reflexivity|]. discriminate.
Qed.

(** C7. With githubOwner acme, githubRepo site, githubBranch main and
    stackName acme-site, the backend project is named acme-site-backend,
    the frontend project acme-site-frontend and the pipeline
    acme-site-pipeline. *)
Theorem acme_site_names stack (secret : string) (fe : FrontendOutput) t :
  let props := {| githubOwner := "acme"; githubRepo := "site";
                  githubBranch := "main"; githubTokenSecretName := secret;
                  stackName := "acme-site"; frontend := fe |} in
  let out := eval (definePipeline stack props) t in
  let t' := exec (definePipeline stack props) t in
  (codebuild.projectName ∘ fst) <$> stage_build t' (pipeline out) "DeployBackend"
    = Some "acme-site-backend" /\
  (codebuild.projectName ∘ fst) <$> stage_build t' (pipeline out) "DeployFrontend"
    = Some "acme-site-frontend" /\
  (codepipeline.pipelineName ∘ fst) <$> pipeline_at t' (pipeline out)
    = Some "acme-site-pipeline".
Proof.
  intros props out t'; subst props out t'.
  synth. repeat split.
Qed.

(** C9. The URL returned by [defineFrontend] is https:// followed by the
    domain name assigned to the distribution it created, and that URL is
    published as the output CloudFrontURL. *)
Theorem frontend_url_published stack (props : option FrontendProps) t :
  let out := eval (defineFrontend stack props) t in
  let t' := exec (defineFrontend stack props) t in
  is_Some (distribution_at t' (distribution out)) /\
  url out = "https://" +:+ Distribution_distributionDomainName (distribution out) /\
  outputs (added (defineFrontend stack props) t) = [
    (stack, "CloudFrontURL", url out);
    (stack, "BucketName", Bucket_bucketName (bucket out)) ].
Proof.
  intros out t'; subst out t'. synth.
  split; [by eexists|]. split; reflexivity.
Qed.

(** C10. The backend build specification declares a cache over the
    single path node_modules/**/*, the frontend build specification
    declares no cache section, and both run npm ci in their install
    phase. *)
Theorem build_cache_asymmetry stack (props : PipelineProps) t :
  let out := eval (definePipeline stack props) t in
  let t' := exec (definePipeline stack props) t in
  exists bprops brole fprops frole,
    stage_build t' (pipeline out) "DeployBackend" = Some (bprops, brole) /\
    stage_build t' (pipeline out) "DeployFrontend" = Some (fprops, frole) /\
    member "cache" (codebuild.buildSpec bprops)
      = Some (JObject [("paths", JArray [JString "node_modules/**/*"])]) /\
    member "cache" (codebuild.buildSpec fprops) = None /\
    phase_commands "install" (codebuild.buildSpec bprops)
      = Some (JArray [JString "npm ci"; JString "npx ampx --version"]) /\
    phase_commands "install" (codebuild.buildSpec fprops)
      = Some (JArray [JString "npm ci"]).
Proof.
  destruct props; intros out t'; subst out t'.
  synth. do 4 eexists. repeat split.
Qed.

End Claims.

(** ** Further properties of the assembly *)

Lemma append_length (a s : string) :
  String.length (a +:+ s) = String.length a + String.length s.
Proof.
  induction a as [|c a IH]; [done|].
  change (S (String.length (a +:+ s)) = S (String.length a) + String.length s).
  by rewrite IH.
Qed.

Lemma append_inv_tail (a b s : string) : a +:+ s = b +:+ s -> a = b.
Proof.
  revert b. induction a as [|c a IH]; intros [|d b] H.
  - done.
  - apply (f_equal String.length) in H. rewrite !append_length in H.
    simpl in H. lia.
  - apply (f_equal String.length) in H. rewrite !append_length in H.
    simpl in H. lia.
  - change (String c (a +:+ s) = String d (b +:+ s)) in H.
    injection H as -> H. f_equal. by apply IH.
Qed.

Lemma distributionArn_inj (a b id : string) :
  distributionArn a id = distributionArn b id -> a = b.
Proof.
  unfold distributionArn. intros H.
  apply (inj (String.app _)) in H.
  by apply append_inv_tail in H.
Qed.

Ltac synth_unfold_wiring := unfold hosted_pipeline, with_frontend.

Section Extras.
Context `{sdk : Sdk}.
Implicit Types (stack fstack pstack : cdk.Stack) (t : App).
Local Open Scope synth_scope.

(** X1. The bucket name is passed through untouched: the bucket gets the
    name given in the properties, and no name at all (so that one is
    generated) when the properties or their bucketName are missing. *)
Theorem frontend_bucket_name_passthrough stack (props : option FrontendProps) t :
  let out := eval (defineFrontend stack props) t in
  let t' := exec (defineFrontend stack props) t in
  s3.bucketName <$> bucket_at t' (bucket out) = Some (props ≫= bucketName).
Proof.
  intros out t'; subst out t'. synth. by destruct props.
Qed.

(** X2. The distribution created by [defineFrontend] serves, through
    origin access control, the very bucket the function returns,
    redirects viewers to HTTPS, and the page of its error response is
    its own default root object. *)
Theorem distribution_serves_returned_bucket stack (props : option FrontendProps) t :
  let out := eval (defineFrontend stack props) t in
  let t' := exec (defineFrontend stack props) t in
  exists dprops e,
    distribution_at t' (distribution out) = Some dprops /\
    is_Some (bucket_at t' (bucket out)) /\
    cloudfront.origin (cloudfront.defaultBehavior dprops)
      = cloudfront_origins.withOriginAccessControl (bucket out) /\
    cloudfront.viewerProtocolPolicy (cloudfront.defaultBehavior dprops)
      = cloudfront.REDIRECT_TO_HTTPS /\
    cloudfront.errorResponses dprops = [e] /\
    cloudfront.responsePagePath e = "/" +:+ cloudfront.defaultRootObject dprops.
Proof.
  intros out t'; subst out t'. synth.
  do 2 eexists. split; [reflexivity|]. split; [by eexists|]. repeat split.
Qed.

(** X5. The source action watches the owner, repository and branch of the
    properties through a webhook, and authenticates with the value of the
    secret that the same call imported under githubTokenSecretName. *)
Theorem source_action_wiring stack (props : PipelineProps) t :
  let out := eval (definePipeline stack props) t in
  let t' := exec (definePipeline stack props) t in
  exists pprops src rest secret,
    pipeline_at t' (pipeline out) = Some (pprops,
      {| stageName := "Source";
         actions := [codepipeline_actions.GitHubSourceAction src] |} :: rest) /\
    codepipeline_actions.owner src = githubOwner props /\
    codepipeline_actions.repo src = githubRepo props /\
    codepipeline_actions.branch src = githubBranch props /\
    codepipeline_actions.trigger src = codepipeline_actions.WEBHOOK /\
    codepipeline_actions.oauthToken src = ISecret_secretValue secret /\
    secret_at t' secret = Some (githubTokenSecretName props).
Proof.
  destruct props; intros out t'; subst out t'.
  synth. do 4 eexists. split; [reflexivity|]. cbn.
  do 5 (split; [reflexivity|]).
  unfold secret_at. cbn. by rewrite lookup_fresh0.
Qed.

(** X6. The backend build deploys the branch the source action watches:
    its environment is BRANCH_NAME, bound to that branch, and STACK_NAME,
    bound to the stack name of the properties. *)
Theorem backend_deploys_watched_branch stack (props : PipelineProps) t :
  let out := eval (definePipeline stack props) t in
  let t' := exec (definePipeline stack props) t in
  exists pprops src rest bprops brole,
    pipeline_at t' (pipeline out) = Some (pprops,
      {| stageName := "Source";
         actions := [codepipeline_actions.GitHubSourceAction src] |} :: rest) /\
    stage_build t' (pipeline out) "DeployBackend" = Some (bprops, brole) /\
    codebuild.environmentVariables bprops = [
      ("BRANCH_NAME", {| codebuild.value := codepipeline_actions.branch src |});
      ("STACK_NAME", {| codebuild.value := stackName props |}) ].
Proof.
  destruct props; intros out t'; subst out t'.
  synth. do 5 eexists. repeat split.
Qed.

(** X7. The frontend build is told to work on what it is allowed to touch:
    BUCKET_NAME is the name of the bucket it was granted read/write on,
    and DISTRIBUTION_ID is the identifier inside the one ARN it may
    invalidate. *)
Theorem frontend_build_targets_descriptor stack (props : PipelineProps) t :
  let out := eval (definePipeline stack props) t in
  let t' := exec (definePipeline stack props) t in
  exists fprops b id,
    stage_build t' (pipeline out) "DeployFrontend" = Some (fprops, [
      BucketReadWrite b;
      Statement {| iam.actions := ["cloudfront:CreateInvalidation"];
                   iam.resources := [distributionArn (cdk.account stack) id] |} ]) /\
    codebuild.environmentVariables fprops = [
      ("BUCKET_NAME", {| codebuild.value := Bucket_bucketName b |});
      ("DISTRIBUTION_ID", {| codebuild.value := id |}) ].
Proof.
  destruct props; intros out t'; subst out t'.
  synth. do 3 eexists. split; reflexivity.
Qed.

(** X8. The two build actions run two different projects of the stack,
    BackendBuild and FrontendBuild, and what the code attaches to a build
    identity reaches the intended one: the statement on the wildcard
    resource goes to the backend project and nothing else does; the
    bucket grant and a statement that does not name the wildcard resource
    go to the frontend project.  (Only the calls of [addToRolePolicy] and
    [grantReadWrite] made by the code are counted, not what the SDK puts
    on a role of its own accord.) *)
Theorem build_identities_separate stack (props : PipelineProps) t :
  let out := eval (definePipeline stack props) t in
  let t' := exec (definePipeline stack props) t in
  exists pprops src be fe bprops fprops wildcard granted scoped,
    pipeline_at t' (pipeline out) = Some (pprops, [
      {| stageName := "Source";
         actions := [codepipeline_actions.GitHubSourceAction src] |};
      {| stageName := "DeployBackend";
         actions := [codepipeline_actions.CodeBuildAction be] |};
      {| stageName := "DeployFrontend";
         actions := [codepipeline_actions.CodeBuildAction fe] |} ]) /\
    codepipeline_actions.project be <> codepipeline_actions.project fe /\
    node_path <$> t' !! codebuild.addr (codepipeline_actions.project be)
      = Some (stack, "BackendBuild") /\
    node_path <$> t' !! codebuild.addr (codepipeline_actions.project fe)
      = Some (stack, "FrontendBuild") /\
    project_at t' (codepipeline_actions.project be)
      = Some (bprops, [Statement wildcard]) /\
    iam.resources wildcard = ["*"] /\
    project_at t' (codepipeline_actions.project fe)
      = Some (fprops, [BucketReadWrite granted; Statement scoped]) /\
    granted = bucket (frontend props) /\
    "*" ∉ iam.resources scoped.
Proof.
  destruct props; intros out t'; subst out t'.
  synth. do 9 eexists. split; [reflexivity|]. cbn.
  split; [intros [=]; lia|].
  rewrite !lookup_fresh. cbn.
  do 6 (split; [reflexivity|]).
  intros [Heq|[]%elem_of_nil]%elem_of_cons. discriminate Heq.
Qed.

(** X9. [definePipeline] publishes exactly one output, PipelineName, whose
    value is the name the SDK assigns to the pipeline it returns. *)
Theorem pipeline_name_published stack (props : PipelineProps) t :
  let out := eval (definePipeline stack props) t in
  let t' := exec (definePipeline stack props) t in
  is_Some (pipeline_at t' (pipeline out)) /\
  outputs (added (definePipeline stack props) t) =
    [(stack, "PipelineName", Pipeline_pipelineName (pipeline out))].
Proof.
  destruct props; intros out t'; subst out t'.
  synth. split; [by eexists|reflexivity].
Qed.

(** X10. The file the backend build hands over reaches the frontend build:
    the artifact the backend action produces is the extra input of the
    frontend action, and the first pre_build command of the frontend copies
    the file the backend declares from the directory named after that
    artifact. *)
Theorem backend_artifact_reaches_frontend stack (props : PipelineProps) t :
  let out := eval (definePipeline stack props) t in
  let t' := exec (definePipeline stack props) t in
  exists pprops src be fe bprops brole fprops frole artifact file more,
    pipeline_at t' (pipeline out) = Some (pprops, [
      {| stageName := "Source";
         actions := [codepipeline_actions.GitHubSourceAction src] |};
      {| stageName := "DeployBackend";
         actions := [codepipeline_actions.CodeBuildAction be] |};
      {| stageName := "DeployFrontend";
         actions := [codepipeline_actions.CodeBuildAction fe] |} ]) /\
    project_at t' (codepipeline_actions.project be) = Some (bprops, brole) /\
    project_at t' (codepipeline_actions.project fe) = Some (fprops, frole) /\
    codepipeline_actions.outputs be = Some [artifact] /\
    codepipeline_actions.extraInputs fe = Some [artifact] /\
    member "artifacts" (codebuild.buildSpec bprops)
      = Some (JObject [("files", JArray [JString file])]) /\
    phase_commands "pre_build" (codebuild.buildSpec fprops)
      = Some (JArray (JString ("cp $CODEBUILD_SRC_DIR_"
                                +:+ codepipeline.artifactName artifact
                                +:+ "/" +:+ file +:+ " .") :: more)).
Proof.
  destruct props; intros out t'; subst out t'.
  synth. do 11 eexists. split; [reflexivity|]. cbn.
  rewrite !lookup_fresh. cbn. repeat split.
Qed.

(** X11. Used as in [backend.ts], the pipeline is wired to the hosting
    defined before it: the bucket its frontend build is granted is the
    FrontendBucket of the hosting stack, still configured as it was
    created, and BUCKET_NAME carries the value published as BucketName. *)
Theorem hosting_feeds_pipeline fstack (fprops : option FrontendProps) pstack
    (pprops : PipelineProps) t :
  let run := hosted_pipeline fstack fprops pstack pprops in
  let fe := fst (eval run t) in
  let po := snd (eval run t) in
  let t' := exec run t in
  exists fbprops name,
    t' !! s3.addr (bucket fe) = Some {|
      node_scope := fstack; node_id := "FrontendBucket";
      node_construct := CBucket {|
        s3.bucketName := fprops ≫= bucketName;
        s3.blockPublicAccess := s3.BLOCK_ALL;
        s3.removalPolicy := cdk.DESTROY;
        s3.autoDeleteObjects := true |} |} /\
    stage_build t' (pipeline po) "DeployFrontend" = Some (fbprops, [
      BucketReadWrite (bucket fe);
      Statement {| iam.actions := ["cloudfront:CreateInvalidation"];
                   iam.resources := [
                     distributionArn (cdk.account pstack)
                       (Distribution_distributionId (distribution fe)) ] |} ]) /\
    assoc "BUCKET_NAME" (codebuild.environmentVariables fbprops)
      = Some {| codebuild.value := name |} /\
    outputs (added run t) = [
      (fstack, "CloudFrontURL", url fe);
      (fstack, "BucketName", name);
      (pstack, "PipelineName", Pipeline_pipelineName (pipeline po)) ].
Proof.
  intros run fe po t'; subst run fe po t'. destruct pprops.
  synth_unfold_wiring. synth. do 2 eexists.
  split; [by destruct fprops|]. repeat split.
Qed.

(** X12. Used as in [backend.ts], the resource the frontend build may
    invalidate is the ARN of the distribution in the account of the stack
    that holds it exactly when the pipeline stack is in that account. *)
Theorem invalidation_arn_iff_same_account fstack (fprops : option FrontendProps)
    pstack (pprops : PipelineProps) t :
  let run := hosted_pipeline fstack fprops pstack pprops in
  let fe := fst (eval run t) in
  let po := snd (eval run t) in
  let t' := exec run t in
  exists fbprops grant resource home,
    stage_build t' (pipeline po) "DeployFrontend" = Some (fbprops, [
      grant;
      Statement {| iam.actions := ["cloudfront:CreateInvalidation"];
                   iam.resources := [resource] |} ]) /\
    node_scope <$> t' !! cloudfront.addr (distribution fe) = Some home /\
    (resource = distributionArn (cdk.account home)
                  (Distribution_distributionId (distribution fe))
     <-> cdk.account pstack = cdk.account home).
Proof.
  intros run fe po t'; subst run fe po t'. destruct pprops.
  synth_unfold_wiring. synth. do 4 eexists.
  split; [reflexivity|]. split; [reflexivity|]. split.
  - apply distributionArn_inj.
  - by intros ->.
Qed.


End Extras.

(** ** The assembly on concrete inputs *)

(** The two calls of [backend.ts], run on an empty tree with placeholder
    attributes: the constructs the code creates, in creation order, the
    three outputs it publishes, and what it attaches to the frontend
    build identity. *)
Example backend_ts_constructs :
  node_id <$> exec (backend_ts (sdk := placeholders) amplifyStack) [] =
  ["FrontendBucket"; "Distribution"; "CloudFrontURL"; "BucketName";
   "GitHubToken"; "BackendBuild"; "FrontendBuild"; "Pipeline"; "PipelineName"].
Proof. reflexivity. Qed.

Example backend_ts_outputs :
  outputs (exec (backend_ts (sdk := placeholders) amplifyStack) []) =
  [(amplifyStack "Frontend", "CloudFrontURL", "https://${Token[Distribution.DomainName]}");
   (amplifyStack "Frontend", "BucketName", "${Token[Bucket.Ref]}");
   (amplifyStack "Pipeline", "PipelineName", "${Token[Pipeline.Ref]}")].
Proof. reflexivity. Qed.

Example backend_ts_frontend_role :
  snd <$> stage_build (exec (backend_ts (sdk := placeholders) amplifyStack) [])
            (codepipeline.PipelineAt 7) "DeployFrontend" =
  Some [BucketReadWrite (s3.BucketAt 0);
        Statement {|
          iam.actions := ["cloudfront:CreateInvalidation"];
          iam.resources :=
            ["arn:aws:cloudfront::${Token[AWS.AccountId]}:distribution/${Token[Distribution.Ref]}"] |}].
Proof. reflexivity. Qed.

Example dquote_code : dquote = String (ascii_of_nat 34) EmptyString.
Proof. reflexivity. Qed.

Example backend_has_no_pre_build : phase_commands "pre_build" backendBuildSpec = None.
Proof. reflexivity. Qed.
